(** * calculator_v2: the arithmetic engine and its request handler

    A shallow embedding of [calculator_v2/calculator.py] (class [Calculator])
    and of the [/calculate] route of [calculator_v2/main.py].

    - A Python [float] is an IEEE 754 binary64 value: it is embedded as
      Rocq's primitive [float], whose operations are the same binary64
      operations.  Python's [+], [-] and [*] on floats never raise; [/]
      raises only on a zero divisor, which [Calculator.divide] tests first.
    - A Python [str] is embedded as a [string] whose characters are the code
      points U+0000 .. U+00FF; [str.lower] is embedded exactly on that
      range.
    - The instance attribute [self._operations] is a [dict] in insertion
      order, embedded as an association list from keys to bound methods.
    - Exceptions are values; methods run in a state-and-exception monad over
      the instance. *)

From Stdlib Require Import PrimFloat SpecFloat FloatOps FloatAxioms.
From Stdlib Require Import Bool Ascii String List ZArith.
Import ListNotations.

Local Open Scope list_scope.
Local Open Scope string_scope.

(** ** Python strings *)

Module PyStr.

(** [c.lower()] for one character in U+0000 .. U+00FF: the upper-case
    letters are A-Z (U+0041 .. U+005A) and U+00C0 .. U+00DE without the
    multiplication sign U+00D7; each maps to the code point 32 above. *)
Definition lower_char (c : ascii) : ascii :=
  let n := nat_of_ascii c in
  if ((65 <=? n) && (n <=? 90))%nat
     || ((192 <=? n) && (n <=? 222) && negb (n =? 215))%nat
  then ascii_of_nat (n + 32)
  else c.

(** [s.lower()] *)
Fixpoint lower (s : string) : string :=
  match s with
  | EmptyString => EmptyString
  | String c s' => String (lower_char c) (lower s')
  end.

(** [sep.join(l)] *)
Fixpoint join (sep : string) (l : list string) : string :=
  match l with
  | [] => ""
  | [x] => x
  | x :: rest => x ++ sep ++ join sep rest
  end.

(** [s.startswith(p)] *)
Fixpoint startswith (s p : string) : bool :=
  match p, s with
  | EmptyString, _ => true
  | String _ _, EmptyString => false
  | String a p', String b s' => Ascii.eqb a b && startswith s' p'
  end.

(** [sub in s] *)
Fixpoint contains (s sub : string) : bool :=
  startswith s sub
  || match s with
     | EmptyString => false
     | String _ s' => contains s' sub
     end.

(** The relational reading of [sub in s]. *)
Definition Contains (s sub : string) : Prop :=
  exists pre post, s = pre ++ sub ++ post.

End PyStr.

(** ** Exceptions and the method monad *)

Inductive exn : Type :=
| ZeroDivisionError (msg : string)
| ValueError (msg : string)
| KeyError (key : string).

(** [str(e)]; a [KeyError] prints the [repr] of its key (written here for a
    key without quotes or escapes in it). *)
Definition exn_str (e : exn) : string :=
  match e with
  | ZeroDivisionError msg => msg
  | ValueError msg => msg
  | KeyError key => "'" ++ key ++ "'"
  end.

Inductive outcome (A : Type) : Type :=
| Return (v : A)
| Raise (e : exn).
Arguments Return {A} v.
Arguments Raise {A} e.

(** A bound method stored in the mapping: [self.add], [self.subtract],
    [self.multiply], [self.divide]. *)
Inductive bound_method : Type :=
| self_add
| self_subtract
| self_multiply
| self_divide.

(** An ordered [dict] with [str] keys. *)
Module Dict.

Definition t (V : Type) : Type := list (string * V).

(** [d[k]], [None] standing for the [KeyError]. *)
Fixpoint get {V} (d : t V) (k : string) : option V :=
  match d with
  | [] => None
  | (k', v) :: d' => if String.eqb k k' then Some v else get d' k
  end.

(** [k in d] *)
Definition mem {V} (k : string) (d : t V) : bool :=
  match get d k with
  | Some _ => true
  | None => false
  end.

(** [d.keys()], in insertion order. *)
Definition keys {V} (d : t V) : list string := map fst d.

End Dict.

(** The instance: its only attribute is [_operations]. *)
Record Calculator : Type := mkCalculator {
  _operations : Dict.t bound_method
}.

(** A method body: it receives the instance and gives back an outcome and
    the instance as it is left. *)
Definition M (A : Type) : Type := Calculator -> outcome A * Calculator.

Definition ret {A} (v : A) : M A := fun self => (Return v, self).

Definition raise {A} (e : exn) : M A := fun self => (Raise e, self).

Definition bind {A B} (m : M A) (k : A -> M B) : M B :=
  fun self =>
    match m self with
    | (Return v, self') => k v self'
    | (Raise e, self') => (Raise e, self')
    end.

(** Reading [self._operations]. *)
Definition get_operations : M (Dict.t bound_method) :=
  fun self => (Return (_operations self), self).

Notation "x <- m ;; k" := (bind m (fun x => k))
  (at level 61, m at next level, right associativity).

(** ** class Calculator *)

(** [Calculator.__init__] *)
Definition Calculator_init : Calculator :=
  {| _operations := [ ("add", self_add);
                      ("subtract", self_subtract);
                      ("multiply", self_multiply);
                      ("divide", self_divide) ] |}.

(** [Calculator.add] *)
Definition add (a b : float) : M float := ret (a + b)%float.

(** [Calculator.subtract] *)
Definition subtract (a b : float) : M float := ret (a - b)%float.

(** [Calculator.multiply] *)
Definition multiply (a b : float) : M float := ret (a * b)%float.

(** [Calculator.divide] *)
Definition divide (a b : float) : M float :=
  if (b =? 0)%float
  then raise (ZeroDivisionError "Cannot divide by zero")
  else ret (a / b)%float.

(** Calling a bound method of the instance. *)
Definition call (m : bound_method) (a b : float) : M float :=
  match m with
  | self_add => add a b
  | self_subtract => subtract a b
  | self_multiply => multiply a b
  | self_divide => divide a b
  end.

(** [Calculator.calculate] *)
Definition calculate (operation : string) (num1 num2 : float) : M float :=
  let operation := PyStr.lower operation in
  ops <- get_operations ;;
  if negb (Dict.mem operation ops)
  then raise (ValueError
                ("Unsupported operation: " ++ operation ++ ". "
                 ++ "Supported operations: "
                 ++ PyStr.join ", " (Dict.keys ops)))
  else
    ops' <- get_operations ;;
    match Dict.get ops' operation with
    | Some operation_method => call operation_method num1 num2
    | None => raise (KeyError operation)
    end.

(** [Calculator.get_supported_operations] *)
Definition get_supported_operations : M (list string) :=
  ops <- get_operations ;;
  ret (Dict.keys ops).

(** The outcome of a method run on the instance [self]. *)
Definition result_of {A} (m : M A) (self : Calculator) : outcome A :=
  fst (m self).

(** The instance after a method has run on [self]. *)
Definition self_after {A} (m : M A) (self : Calculator) : Calculator :=
  snd (m self).

(** ** Sequences of method calls on one instance *)

(** A call of a public method of [Calculator]. *)
Inductive method_call : Type :=
| call_add (a b : float)
| call_subtract (a b : float)
| call_multiply (a b : float)
| call_divide (a b : float)
| call_calculate (operation : string) (num1 num2 : float)
| call_get_supported_operations.

(** What a method hands back: a float or a list of keys. *)
Inductive py_value : Type :=
| PyFloat (x : float)
| PyList (l : list string).

Definition run (c : method_call) : M py_value :=
  match c with
  | call_add a b => x <- add a b ;; ret (PyFloat x)
  | call_subtract a b => x <- subtract a b ;; ret (PyFloat x)
  | call_multiply a b => x <- multiply a b ;; ret (PyFloat x)
  | call_divide a b => x <- divide a b ;; ret (PyFloat x)
  | call_calculate operation num1 num2 =>
      x <- calculate operation num1 num2 ;; ret (PyFloat x)
  | call_get_supported_operations =>
      l <- get_supported_operations ;; ret (PyList l)
  end.

(** The instance after the calls [cs] were made on it one after the other,
    whether they returned or raised. *)
Fixpoint run_all (cs : list method_call) (self : Calculator) : Calculator :=
  match cs with
  | [] => self
  | c :: cs' => run_all cs' (self_after (run c) self)
  end.

(** ** main.py: the request and response models and the [/calculate] route *)

(** [class OperationType(str, Enum)] *)
Inductive OperationType : Type :=
| ADD
| SUBTRACT
| MULTIPLY
| DIVIDE.

(** [member.value] *)
Definition value (op : OperationType) : string :=
  match op with
  | ADD => "add"
  | SUBTRACT => "subtract"
  | MULTIPLY => "multiply"
  | DIVIDE => "divide"
  end.

Module CalculationRequest.
Record t : Type := make {
  operation : OperationType;
  num1 : float;
  num2 : float
}.
End CalculationRequest.

Module CalculationResponse.
Record t : Type := make {
  operation : string;
  num1 : float;
  num2 : float;
  result : float
}.
End CalculationResponse.

Definition HTTP_200_OK : Z := 200.
Definition HTTP_400_BAD_REQUEST : Z := 400.
Definition HTTP_422_UNPROCESSABLE_ENTITY : Z := 422.
Definition HTTP_500_INTERNAL_SERVER_ERROR : Z := 500.

Record HTTPException : Type := mkHTTPException {
  status_code : Z;
  detail : string
}.

(** The three [except] clauses of the [calculate] route, in their order. *)
Definition handle_exception (e : exn) : HTTPException :=
  match e with
  | ZeroDivisionError _ =>
      mkHTTPException HTTP_400_BAD_REQUEST (exn_str e)
  | ValueError _ =>
      mkHTTPException HTTP_400_BAD_REQUEST (exn_str e)
  | _ =>
      mkHTTPException HTTP_500_INTERNAL_SERVER_ERROR
        ("An unexpected error occurred: " ++ exn_str e)
  end.

(** The route function [calculate(request)] of main.py, run on the module's
    [calculator]: it returns a [CalculationResponse] or raises an
    [HTTPException]. *)
Definition calculate_endpoint (request : CalculationRequest.t)
  : Calculator -> (CalculationResponse.t + HTTPException) * Calculator :=
  fun calculator =>
    match calculate (value (CalculationRequest.operation request))
                    (CalculationRequest.num1 request)
                    (CalculationRequest.num2 request) calculator with
    | (Return result, calculator') =>
        (inl (CalculationResponse.make
                (value (CalculationRequest.operation request))
                (CalculationRequest.num1 request)
                (CalculationRequest.num2 request)
                result),
         calculator')
    | (Raise e, calculator') => (inr (handle_exception e), calculator')
    end.

(** The body of an HTTP response. *)
Inductive content : Type :=
| Calculation (r : CalculationResponse.t)
| Detail (detail : string)
| ValidationErrors.

Record Response : Type := mkResponse {
  status : Z;
  body : content
}.

(** [@app.post("/calculate", status_code=status.HTTP_200_OK)] around the
    route function: a returned model is sent with status 200, a raised
    [HTTPException] with its own status and its [detail]. *)
Definition route_calculate (request : CalculationRequest.t)
  : Calculator -> Response * Calculator :=
  fun calculator =>
    match calculate_endpoint request calculator with
    | (inl r, calculator') =>
        (mkResponse HTTP_200_OK (Calculation r), calculator')
    | (inr e, calculator') =>
        (mkResponse (status_code e) (Detail (detail e)), calculator')
    end.

(** The JSON body of a POST to [/calculate], numbers read as floats. *)
Record RequestBody : Type := mkRequestBody {
  body_operation : string;
  body_num1 : float;
  body_num2 : float
}.

(** [OperationType(s)]: the member whose value is exactly [s]. *)
Definition OperationType_of_value (s : string) : option OperationType :=
  if String.eqb s "add" then Some ADD
  else if String.eqb s "subtract" then Some SUBTRACT
  else if String.eqb s "multiply" then Some MULTIPLY
  else if String.eqb s "divide" then Some DIVIDE
  else None.

(** Validation of the body against [CalculationRequest]: the field
    [operation] is typed by the enumeration [OperationType]. *)
Definition validate (b : RequestBody) : option CalculationRequest.t :=
  match OperationType_of_value (body_operation b) with
  | Some op => Some (CalculationRequest.make op (body_num1 b) (body_num2 b))
  | None => None
  end.

(** A POST to [/calculate] end to end: a body that does not validate is
    answered with status 422 before the route function runs (the route's
    docstring: "HTTPException 422: If invalid parameters (handled by
    Pydantic)"). *)
Definition post_calculate (b : RequestBody)
  : Calculator -> Response * Calculator :=
  fun calculator =>
    match validate b with
    | Some request => route_calculate request calculator
    | None =>
        (mkResponse HTTP_422_UNPROCESSABLE_ENTITY ValidationErrors, calculator)
    end.

(** The canonical keys, in declaration order. *)
Definition canonical_keys : list string :=
  ["add"; "subtract"; "multiply"; "divide"].

(** ** main.py: requests served one after the other, and [/operations] *)

(** The module's [calculator] after the POSTs [bs] to [/calculate] were
    served one after the other, whatever their responses. *)
Fixpoint serve_all (bs : list RequestBody) (calculator : Calculator)
  : Calculator :=
  match bs with
  | [] => calculator
  | b :: bs' => serve_all bs' (snd (post_calculate b calculator))
  end.

Module OperationInfo.
Record t : Type := make {
  operation : string;
  description : string;
  symbol : string
}.
End OperationInfo.

(** The multiplication sign U+00D7 and the division sign U+00F7. *)
Definition times_sign : string := String "215"%char "".
Definition division_sign : string := String "247"%char "".

(** The [if]/[elif] chain in the loop of the [/operations] route. *)
Definition operation_info (op : string) : OperationInfo.t :=
  if String.eqb op "add" then
    OperationInfo.make op "Addition (a + b)" "+"
  else if String.eqb op "subtract" then
    OperationInfo.make op "Subtraction (a - b)" "-"
  else if String.eqb op "multiply" then
    OperationInfo.make op ("Multiplication (a " ++ times_sign ++ " b)")
                       times_sign
  else if String.eqb op "divide" then
    OperationInfo.make op ("Division (a " ++ division_sign ++ " b)")
                       division_sign
  else
    OperationInfo.make op ("Operation: " ++ op) "?".

(** The body of the answer of [/operations]. *)
Record OperationsListing : Type := mkOperationsListing {
  supported_operations : list OperationInfo.t;
  total_count : nat
}.

Module Main.

(** The route function [get_operations()] of main.py: the loop appends one
    entry per key to [operations_info], which starts empty. *)
Definition get_operations : M OperationsListing :=
  supported_ops <- get_supported_operations ;;
  let operations_info :=
    fold_left (fun operations_info op =>
                 operations_info ++ [operation_info op])%list
              supported_ops [] in
  ret (mkOperationsListing operations_info (List.length operations_info)).

End Main.

(** ** Strings *)

Lemma lower_char_idempotent (c : ascii) :
  PyStr.lower_char (PyStr.lower_char c) = PyStr.lower_char c.
Proof.
  destruct c as [[] [] [] [] [] [] [] []]; reflexivity.
Qed.

Lemma lower_idempotent (s : string) :
  PyStr.lower (PyStr.lower s) = PyStr.lower s.
Proof.
  induction s as [| c s IH]; simpl.
  - reflexivity.
  - now rewrite lower_char_idempotent, IH.
Qed.

Lemma startswith_spec (s p : string) :
  PyStr.startswith s p = true <-> exists post, s = p ++ post.
Proof.
  revert s; induction p as [| a p IH]; intros s.
  - split; [now exists s | now destruct s].
  - destruct s as [| b s]; simpl.
    + split; [discriminate | intros [post H]; discriminate].
    + rewrite andb_true_iff, Ascii.eqb_eq, IH. split.
      * intros [-> [post ->]]. now exists post.
      * intros [post H]. injection H as -> ->. split; [reflexivity | now exists post].
Qed.

Lemma contains_spec (s sub : string) :
  PyStr.contains s sub = true <-> PyStr.Contains s sub.
Proof.
  unfold PyStr.Contains.
  induction s as [| c s IH].
  - change (PyStr.contains "" sub)
      with (PyStr.startswith "" sub || false).
    rewrite orb_true_iff, startswith_spec. split.
    + intros [[post H] | H]; [| discriminate].
      exists "", post. exact H.
    + intros [pre [post H]]. left.
      destruct pre; [now exists post | discriminate].
  - change (PyStr.contains (String c s) sub)
      with (PyStr.startswith (String c s) sub || PyStr.contains s sub).
    rewrite orb_true_iff, startswith_spec, IH. split.
    + intros [[post H] | [pre [post H]]].
      * exists "", post. exact H.
      * exists (String c pre), post. simpl. now rewrite H.
    + intros [pre [post H]]. destruct pre as [| c' pre]; simpl in H.
      * left. now exists post.
      * right. injection H as _ H. now exists pre, post.
Qed.

Lemma append_assoc (x y z : string) : (x ++ y) ++ z = x ++ y ++ z.
Proof.
  induction x as [| c x IH]; simpl; [reflexivity | now rewrite IH].
Qed.

Lemma Contains_intro (pre sub post : string) :
  PyStr.Contains (pre ++ sub ++ post) sub.
Proof. now exists pre, post. Qed.

(** ** The mapping *)

Lemma Dict_mem_keys {V} (d : Dict.t V) (k : string) :
  Dict.mem k d = true <-> In k (Dict.keys d).
Proof.
  unfold Dict.mem, Dict.keys.
  induction d as [| [k' v] d IH]; simpl.
  - split; [discriminate | tauto].
  - destruct (String.eqb_spec k k') as [-> | Hne].
    + split; auto.
    + rewrite IH. split; [auto |].
      intros [H | H]; [congruence | exact H].
Qed.


Lemma keys_Calculator_init :
  Dict.keys (_operations Calculator_init) = canonical_keys.
Proof. reflexivity. Qed.

(** The unsupported-operation branch of [calculate], on any instance. *)
Lemma calculate_unsupported (self : Calculator) (s : string) (a b : float) :
  ~ In (PyStr.lower s) (Dict.keys (_operations self)) ->
  calculate s a b self =
  (Raise (ValueError
            ("Unsupported operation: " ++ PyStr.lower s ++ ". "
             ++ "Supported operations: "
             ++ PyStr.join ", " (Dict.keys (_operations self)))),
   self).
Proof.
  intros Hnot. unfold calculate, bind, get_operations, raise.
  destruct (Dict.mem (PyStr.lower s) (_operations self)) eqn:Hmem.
  - apply Dict_mem_keys in Hmem. contradiction.
  - reflexivity.
Qed.


(** ** No method writes the instance *)

Lemma call_keeps_self (m : bound_method) (a b : float) (self : Calculator) :
  snd (call m a b self) = self.
Proof.
  destruct m; simpl; unfold add, subtract, multiply, divide, ret, raise;
    try reflexivity.
  now destruct (b =? 0)%float.
Qed.

Lemma calculate_keeps_self (s : string) (a b : float) (self : Calculator) :
  snd (calculate s a b self) = self.
Proof.
  unfold calculate, bind, get_operations, raise.
  destruct (Dict.mem (PyStr.lower s) (_operations self)); simpl.
  - destruct (Dict.get (_operations self) (PyStr.lower s)) as [m |].
    + apply call_keeps_self.
    + reflexivity.
  - reflexivity.
Qed.

Lemma run_keeps_self (c : method_call) (self : Calculator) :
  self_after (run c) self = self.
Proof.
  unfold self_after.
  destruct c as [a b | a b | a b | a b | s a b |]; simpl; try reflexivity.
  - unfold bind, divide, raise, ret. now destruct (b =? 0)%float.
  - unfold bind. pose proof (calculate_keeps_self s a b self) as H.
    destruct (calculate s a b self) as [[x | e] self']; simpl in *; exact H.
Qed.

Lemma run_all_keeps_self (cs : list method_call) (self : Calculator) :
  run_all cs self = self.
Proof.
  revert self; induction cs as [| c cs IH]; intros self; simpl.
  - reflexivity.
  - now rewrite run_keeps_self, IH.
Qed.

Lemma lower_length (s : string) :
  String.length (PyStr.lower s) = String.length s.
Proof.
  induction s as [| c s IH]; simpl; [reflexivity | now rewrite IH].
Qed.

Lemma append_same_length (s t x y : string) :
  String.length s = String.length t -> s ++ x = t ++ y -> s = t.
Proof.
  revert t; induction s as [| c s IH]; intros [| d t] Hlen Heq;
    simpl in *; try discriminate.
  - reflexivity.
  - injection Heq as -> Heq. injection Hlen as Hlen.
    now rewrite (IH t Hlen Heq).
Qed.

(** A validated request reaches the dispatch branch: the value of each
    member of [OperationType] is a key of the mapping. *)
Lemma calculate_value (op : OperationType) (a b : float) :
  calculate (value op) a b Calculator_init =
  call (match op with
        | ADD => self_add
        | SUBTRACT => self_subtract
        | MULTIPLY => self_multiply
        | DIVIDE => self_divide
        end) a b Calculator_init.
Proof. destruct op; reflexivity. Qed.

(** ** The properties of the specification *)

(** C1. On a constructed calculator, [calculate("add", a, b)] returns
    [a + b], [calculate("subtract", a, b)] returns [a - b] and
    [calculate("multiply", a, b)] returns [a * b], for all floats [a] and
    [b] (the finite ones in particular). *)
Theorem calculate_add_subtract_multiply (a b : float) :
  result_of (calculate "add" a b) Calculator_init = Return (a + b)%float
  /\ result_of (calculate "subtract" a b) Calculator_init = Return (a - b)%float
  /\ result_of (calculate "multiply" a b) Calculator_init = Return (a * b)%float.
Proof.
  repeat split; reflexivity.
Qed.

(** C2. For all floats [a] and [b] with [b != 0] (Python's comparison, so
    neither [0.0] nor [-0.0]), [calculate("divide", a, b)] returns [a / b]
    and does not fail. *)
Theorem calculate_divide (a b : float) :
  (b =? 0)%float = false ->
  result_of (calculate "divide" a b) Calculator_init = Return (a / b)%float.
Proof.
  intros Hb. unfold result_of.
  change (calculate "divide" a b Calculator_init)
    with (divide a b Calculator_init).
  unfold divide. now rewrite Hb.
Qed.

Lemma calculate_divide_witness :
  (2 =? 0)%float = false
  /\ result_of (calculate "divide" 10 2) Calculator_init = Return 5%float.
Proof.
  split; [reflexivity | exact (calculate_divide 10 2 eq_refl)].
Defined.

(** C3. For every float [a], [calculate("divide", a, b)] with [b == 0]
    ([0.0], and [-0.0] as well) fails with the ZeroDivisionError whose
    message is "Cannot divide by zero" and returns no result. *)
Theorem calculate_divide_by_zero (a b : float) :
  (b =? 0)%float = true ->
  result_of (calculate "divide" a b) Calculator_init
  = Raise (ZeroDivisionError "Cannot divide by zero")
  /\ forall r, result_of (calculate "divide" a b) Calculator_init <> Return r.
Proof.
  intros Hb. unfold result_of.
  change (calculate "divide" a b Calculator_init)
    with (divide a b Calculator_init).
  unfold divide. rewrite Hb. split; [reflexivity | discriminate].
Qed.

Lemma calculate_divide_by_zero_witness :
  (0 =? 0)%float = true
  /\ result_of (calculate "divide" 10 0) Calculator_init
     = Raise (ZeroDivisionError "Cannot divide by zero").
Proof.
  split; [reflexivity | exact (proj1 (calculate_divide_by_zero 10 0 eq_refl))].
Defined.

(** C4. For every string [s] whose lower-cased form is not one of add,
    subtract, multiply, divide, and all floats [a] and [b],
    [calculate(s, a, b)] fails with a ValueError whose message carries the
    invalid key (the key that was looked up, [s.lower()]) and lists the four
    valid keys add, subtract, multiply, divide. *)
Theorem calculate_unsupported_operation (s : string) (a b : float) :
  ~ In (PyStr.lower s) canonical_keys ->
  exists msg,
    result_of (calculate s a b) Calculator_init = Raise (ValueError msg)
    /\ msg = "Unsupported operation: " ++ PyStr.lower s
             ++ ". Supported operations: add, subtract, multiply, divide"
    /\ PyStr.Contains msg (PyStr.lower s)
    /\ (forall k, In k canonical_keys -> PyStr.Contains msg k)
    /\ PyStr.Contains msg "add, subtract, multiply, divide".
Proof.
  intros Hnot. eexists. split; [| split; [reflexivity |]].
  - unfold result_of. rewrite calculate_unsupported.
    + reflexivity.
    + exact Hnot.
  - split; [| split].
    + apply Contains_intro.
    + intros k Hk. simpl in Hk.
      destruct Hk as [<- | [<- | [<- | [<- | []]]]].
      * exists ("Unsupported operation: " ++ PyStr.lower s
                ++ ". Supported operations: "),
               ", subtract, multiply, divide".
        simpl. now rewrite append_assoc.
      * exists ("Unsupported operation: " ++ PyStr.lower s
                ++ ". Supported operations: add, "),
               ", multiply, divide".
        simpl. now rewrite append_assoc.
      * exists ("Unsupported operation: " ++ PyStr.lower s
                ++ ". Supported operations: add, subtract, "),
               ", divide".
        simpl. now rewrite append_assoc.
      * exists ("Unsupported operation: " ++ PyStr.lower s
                ++ ". Supported operations: add, subtract, multiply, "),
               "".
        simpl. now rewrite append_assoc.
    + exists ("Unsupported operation: " ++ PyStr.lower s
              ++ ". Supported operations: "), "".
      simpl. now rewrite append_assoc.
Qed.

Lemma calculate_unsupported_operation_witness :
  ~ In (PyStr.lower "power") canonical_keys
  /\ exists msg,
       result_of (calculate "power" 2 3) Calculator_init
       = Raise (ValueError msg)
       /\ msg = "Unsupported operation: power. Supported operations: add, subtract, multiply, divide".
Proof.
  assert (Hnot : ~ In (PyStr.lower "power") canonical_keys).
  { simpl. intros [H | [H | [H | [H | []]]]]; discriminate H. }
  split; [exact Hnot |].
  destruct (calculate_unsupported_operation "power" 2 3 Hnot)
    as [msg [Hres [Hmsg _]]].
  exists msg. split; [exact Hres | exact Hmsg].
Defined.

(** C5. [calculate] is case-insensitive in its operation argument: for
    every string [s] and all floats [a] and [b], [calculate(s, a, b)] has the
    outcome (result or error) of [calculate(s.lower(), a, b)]; and
    [calculate("ADD", 2, 3) == calculate("add", 2, 3) == 5.0]. *)
Theorem calculate_case_insensitive :
  (forall (s : string) (a b : float),
      result_of (calculate s a b) Calculator_init
      = result_of (calculate (PyStr.lower s) a b) Calculator_init)
  /\ result_of (calculate "ADD" 2 3) Calculator_init = Return 5%float
  /\ result_of (calculate "add" 2 3) Calculator_init = Return 5%float.
Proof.
  split; [| split; reflexivity].
  intros s a b. unfold result_of, calculate.
  now rewrite lower_idempotent.
Qed.

(** C6. [get_supported_operations()] returns exactly
    [["add", "subtract", "multiply", "divide"]], in that order, on every
    call: on the constructed calculator and after any calls made on it. *)
Theorem get_supported_operations_canonical (cs : list method_call) :
  result_of get_supported_operations (run_all cs Calculator_init)
  = Return ["add"; "subtract"; "multiply"; "divide"].
Proof.
  now rewrite run_all_keeps_self.
Qed.

(** C9. The operation-to-function mapping is immutable after construction:
    every call to [calculate], [get_supported_operations] or an arithmetic
    method leaves [_operations] (keys, order and bound methods) as it was,
    so a call has the same outcome whatever calls were made on the instance
    before it. *)
Theorem operations_immutable
        (self : Calculator) (cs : list method_call) (c : method_call) :
  _operations (self_after (run c) self) = _operations self
  /\ _operations (run_all cs self) = _operations self
  /\ result_of (run c) (run_all cs self) = result_of (run c) self
  /\ _operations (run_all cs Calculator_init)
     = [ ("add", self_add); ("subtract", self_subtract);
         ("multiply", self_multiply); ("divide", self_divide) ].
Proof.
  rewrite run_keeps_self, !run_all_keeps_self. now repeat split.
Qed.

(** C10. When [calculate] fails with the unsupported-operation error, the
    message reports the lower-cased operation, not the string that was
    passed: for every unrecognized [s] the message starts with
    "Unsupported operation: " followed by [s.lower()], and it starts with
    "Unsupported operation: " followed by [s] only if [s] is already lower
    case. *)
Theorem unsupported_message_lowercased (s : string) (a b : float) :
  ~ In (PyStr.lower s) canonical_keys ->
  exists msg,
    result_of (calculate s a b) Calculator_init = Raise (ValueError msg)
    /\ PyStr.Contains msg ("Unsupported operation: " ++ PyStr.lower s)
    /\ PyStr.startswith msg ("Unsupported operation: " ++ PyStr.lower s) = true
    /\ (PyStr.startswith msg ("Unsupported operation: " ++ s) = true ->
        s = PyStr.lower s).
Proof.
  intros Hnot. eexists. split.
  - unfold result_of. rewrite calculate_unsupported by exact Hnot.
    reflexivity.
  - split; [| split].
    + exists "",
        ". Supported operations: add, subtract, multiply, divide".
      reflexivity.
    + apply startswith_spec.
      exists ". Supported operations: add, subtract, multiply, divide".
      reflexivity.
    + intros H. apply startswith_spec in H. destruct H as [post H].
      simpl in H. injection H as H.
      symmetry in H. apply append_same_length in H; [exact H |].
      symmetry. apply lower_length.
Qed.

Lemma unsupported_message_lowercased_witness :
  ~ In (PyStr.lower "POWER") canonical_keys
  /\ exists msg,
       result_of (calculate "POWER" 2 3) Calculator_init
       = Raise (ValueError msg)
       /\ PyStr.Contains msg "Unsupported operation: power"
       /\ PyStr.contains msg "POWER" = false.
Proof.
  assert (Hnot : ~ In (PyStr.lower "POWER") canonical_keys).
  { simpl. intros [H | [H | [H | [H | []]]]]; discriminate H. }
  split; [exact Hnot |].
  destruct (unsupported_message_lowercased "POWER" 2 3 Hnot)
    as [msg [Hres [Hin _]]].
  exists msg. split; [exact Hres | split; [exact Hin |]].
  unfold result_of in Hres. simpl in Hres. injection Hres as <-.
  reflexivity.
Defined.

(** The request of the end-to-end example with an unknown operation. *)
Lemma validate_power :
  validate (mkRequestBody "power" 2 3) = None.
Proof. reflexivity. Qed.

(** C7, as the specification states it, fails: the POST with body
    [{operation: "power", num1: 2, num2: 3}] is not answered with status
    400 and a message containing "Unsupported operation: power". *)
Lemma post_calculate_power_not_400 :
  ~ exists msg,
      fst (post_calculate (mkRequestBody "power" 2 3) Calculator_init)
      = mkResponse HTTP_400_BAD_REQUEST (Detail msg)
      /\ PyStr.Contains msg "Unsupported operation: power".
Proof.
  intros [msg [H _]]. discriminate H.
Qed.

(** C7, amended. The POST with body [{operation: "power", num1: 2, num2: 3}]
    is rejected by the validation of the request with status 422, since
    "power" is not a value of [OperationType], and the calculator is not
    called; [calculate("power", 2, 3)] called on the calculator itself
    fails with a ValueError whose message contains
    "Unsupported operation: power", and the route's ValueError clause turns
    such an error into status 400 with that message as detail. *)
Theorem post_calculate_power_rejected :
  fst (post_calculate (mkRequestBody "power" 2 3) Calculator_init)
  = mkResponse HTTP_422_UNPROCESSABLE_ENTITY ValidationErrors
  /\ (forall request : CalculationRequest.t,
         value (CalculationRequest.operation request) <> "power")
  /\ exists msg,
       result_of (calculate "power" 2 3) Calculator_init
       = Raise (ValueError msg)
       /\ PyStr.Contains msg "Unsupported operation: power"
       /\ handle_exception (ValueError msg)
          = mkHTTPException HTTP_400_BAD_REQUEST msg.
Proof.
  split; [reflexivity | split].
  - intros [[] n1 n2]; discriminate.
  - eexists. split; [reflexivity | split; [| reflexivity]].
    apply contains_spec. reflexivity.
Qed.

(** C8. For every validated request on which the calculator returns a
    result [r], the [/calculate] route answers with status 200 and a body
    whose operation is the request's operation, whose num1 and num2 are the
    request's operands unchanged and whose result is [r]. *)
Theorem route_calculate_success (request : CalculationRequest.t) (r : float) :
  result_of (calculate (value (CalculationRequest.operation request))
                       (CalculationRequest.num1 request)
                       (CalculationRequest.num2 request)) Calculator_init
  = Return r ->
  fst (route_calculate request Calculator_init)
  = mkResponse HTTP_200_OK
      (Calculation
         (CalculationResponse.make
            (value (CalculationRequest.operation request))
            (CalculationRequest.num1 request)
            (CalculationRequest.num2 request)
            r)).
Proof.
  unfold result_of, route_calculate, calculate_endpoint. intros H.
  destruct (calculate _ _ _ Calculator_init) as [[x | e] calculator'];
    simpl in H; [| discriminate H].
  injection H as ->. reflexivity.
Qed.

Lemma route_calculate_success_witness :
  result_of (calculate "add" 10 5) Calculator_init = Return 15%float
  /\ fst (post_calculate (mkRequestBody "add" 10 5) Calculator_init)
     = mkResponse 200
         (Calculation (CalculationResponse.make "add" 10 5 15)).
Proof.
  split; [reflexivity |].
  exact (route_calculate_success (CalculationRequest.make ADD 10 5) 15 eq_refl).
Defined.

(** The calculator returns on every validated request but a division by
    zero, so the hypothesis of the success case is met by all others. *)
Lemma calculate_value_returns (request : CalculationRequest.t) :
  (CalculationRequest.operation request = DIVIDE ->
   (CalculationRequest.num2 request =? 0)%float = false) ->
  exists r,
    result_of (calculate (value (CalculationRequest.operation request))
                         (CalculationRequest.num1 request)
                         (CalculationRequest.num2 request)) Calculator_init
    = Return r.
Proof.
  destruct request as [op n1 n2]; simpl. intros H.
  unfold result_of. rewrite calculate_value.
  destruct op; simpl; try (eexists; reflexivity).
  unfold divide. rewrite (H eq_refl). eexists; reflexivity.
Qed.

(** ** Further properties of the engine *)

(** A bound method returns, or it is [self.divide] on a zero divisor. *)
Lemma call_outcomes (m : bound_method) (a b : float) (self : Calculator) :
  (exists r, call m a b self = (Return r, self))
  \/ (m = self_divide /\ (b =? 0)%float = true
      /\ call m a b self
         = (Raise (ZeroDivisionError "Cannot divide by zero"), self)).
Proof.
  destruct m; simpl; unfold add, subtract, multiply, divide, ret, raise;
    try (left; eexists; reflexivity).
  destruct (b =? 0)%float.
  - right. repeat split.
  - left. eexists; reflexivity.
Qed.

Lemma lower_canonical (k : string) :
  In k canonical_keys -> PyStr.lower k = k.
Proof.
  simpl. intros [<- | [<- | [<- | [<- | []]]]]; reflexivity.
Qed.

(** On the constructed calculator a key that is found is dispatched to the
    method of its name. *)
Lemma calculate_init_dispatch (s : string) (a b : float) :
  In (PyStr.lower s) canonical_keys ->
  exists m,
    calculate s a b Calculator_init = call m a b Calculator_init
    /\ (m = self_divide <-> PyStr.lower s = "divide").
Proof.
  intros Hin. unfold calculate. simpl in Hin.
  destruct Hin as [H | [H | [H | [H | []]]]]; rewrite <- H.
  - exists self_add. split; [reflexivity |]. split; discriminate.
  - exists self_subtract. split; [reflexivity |]. split; discriminate.
  - exists self_multiply. split; [reflexivity |]. split; discriminate.
  - exists self_divide. split; [reflexivity |]. split; reflexivity.
Qed.


(** X2. On the constructed calculator [calculate(s, a, b)] returns a value
    exactly when [s.lower()] is one of the four keys and the call is not a
    division by a zero [b]. *)
Theorem calculate_returns_iff (s : string) (a b : float) :
  (exists r, result_of (calculate s a b) Calculator_init = Return r)
  <-> In (PyStr.lower s) canonical_keys
      /\ (PyStr.lower s = "divide" -> (b =? 0)%float = false).
Proof.
  unfold result_of. split.
  - intros [r Hr].
    destruct (in_dec string_dec (PyStr.lower s) canonical_keys)
      as [Hin | Hnot].
    + split; [exact Hin |]. intros Hdiv.
      destruct (calculate_init_dispatch s a b Hin) as [m [Hcalc Hm]].
      rewrite Hcalc in Hr. apply Hm in Hdiv. subst m. simpl in Hr.
      unfold divide in Hr. destruct (b =? 0)%float; [discriminate Hr | reflexivity].
    + rewrite (calculate_unsupported Calculator_init s a b Hnot) in Hr.
      discriminate Hr.
  - intros [Hin Hb].
    destruct (calculate_init_dispatch s a b Hin) as [m [-> Hm]].
    destruct (call_outcomes m a b Calculator_init)
      as [[r ->] | [Hdiv [Hzero _]]].
    + now exists r.
    + apply Hm in Hdiv. rewrite (Hb Hdiv) in Hzero. discriminate Hzero.
Qed.

(** X3. Every key that [get_supported_operations()] lists is accepted by
    [calculate] as it is: with a divisor that is not zero the call returns
    a value. *)
Theorem supported_operations_accepted
        (l : list string) (k : string) (a b : float) :
  result_of get_supported_operations Calculator_init = Return l ->
  In k l ->
  (b =? 0)%float = false ->
  exists r, result_of (calculate k a b) Calculator_init = Return r.
Proof.
  intros Hl Hk Hb. injection Hl as <-.
  change (In k canonical_keys) in Hk.
  assert (Hin : In (PyStr.lower k) canonical_keys)
    by now rewrite (lower_canonical k Hk).
  unfold result_of.
  destruct (calculate_init_dispatch k a b Hin) as [m [-> _]].
  destruct (call_outcomes m a b Calculator_init)
    as [[r ->] | [_ [Hzero _]]].
  - now exists r.
  - rewrite Hb in Hzero. discriminate Hzero.
Qed.

Lemma supported_operations_accepted_witness :
  result_of get_supported_operations Calculator_init
  = Return ["add"; "subtract"; "multiply"; "divide"]
  /\ In "multiply" ["add"; "subtract"; "multiply"; "divide"]
  /\ (7 =? 0)%float = false
  /\ exists r, result_of (calculate "multiply" 6 7) Calculator_init = Return r.
Proof.
  assert (Hk : In "multiply" ["add"; "subtract"; "multiply"; "divide"])
    by (simpl; tauto).
  repeat split; [exact Hk |].
  exact (supported_operations_accepted _ "multiply" 6 7 eq_refl Hk eq_refl).
Defined.

(** ** The zero test and IEEE special values *)

(** [b == 0] holds for the two zeros of binary64 and for nothing else. *)
Lemma eqb_zero_iff (b : float) :
  (b =? 0)%float = true <-> b = PrimFloat.zero \/ b = PrimFloat.neg_zero.
Proof.
  split.
  - rewrite FloatAxioms.eqb_spec. intros H.
    rewrite <- (SF2Prim_Prim2SF b).
    change (Prim2SF 0) with (S754_zero false) in H.
    destruct (Prim2SF b) as [[] | [] | | [] m e]; try discriminate H.
    + right. reflexivity.
    + left. reflexivity.
  - intros [-> | ->]; reflexivity.
Qed.

Lemma SFeqb_irrefl_nan (x : spec_float) :
  SFeqb x x = false -> x = S754_nan.
Proof.
  destruct x as [s | s | | s m e]; try reflexivity; unfold SFeqb; simpl.
  - discriminate.
  - destruct s; discriminate.
  - rewrite Z.compare_refl, Pos.compare_cont_refl. destruct s; discriminate.
Qed.

Lemma is_nan_eq (b : float) : is_nan b = true -> b = nan.
Proof.
  unfold is_nan. rewrite negb_true_iff, FloatAxioms.eqb_spec. intros H.
  apply SFeqb_irrefl_nan in H.
  rewrite <- (SF2Prim_Prim2SF b), H. reflexivity.
Qed.

Lemma div_nan (a : float) : (a / nan)%float = nan.
Proof.
  rewrite <- (SF2Prim_Prim2SF (a / nan)), div_spec.
  change (Prim2SF nan) with S754_nan.
  destruct (Prim2SF a) as [s | s | | s m e]; reflexivity.
Qed.

(** X4. [calculate("divide", a, b)] raises the ZeroDivisionError exactly
    when [b] is one of the two zeros of binary64, [0.0] or [-0.0]; every
    other divisor, however small, is divided by. *)
Theorem calculate_divide_raises_iff (a b : float) :
  result_of (calculate "divide" a b) Calculator_init
  = Raise (ZeroDivisionError "Cannot divide by zero")
  <-> b = PrimFloat.zero \/ b = PrimFloat.neg_zero.
Proof.
  rewrite <- eqb_zero_iff. unfold result_of.
  change (calculate "divide" a b Calculator_init)
    with (divide a b Calculator_init).
  unfold divide. destruct (b =? 0)%float; simpl.
  - split; reflexivity.
  - split; discriminate.
Qed.

(** X5. A NaN divisor is not taken for zero: [calculate("divide", a, b)]
    with [b] a NaN raises nothing and returns NaN. *)
Theorem calculate_divide_by_nan (a b : float) :
  is_nan b = true ->
  result_of (calculate "divide" a b) Calculator_init = Return nan.
Proof.
  intros Hb. apply is_nan_eq in Hb. subst b.
  unfold result_of.
  change (calculate "divide" a nan Calculator_init)
    with (divide a nan Calculator_init).
  unfold divide. change (nan =? 0)%float with false. simpl.
  now rewrite div_nan.
Qed.

Lemma calculate_divide_by_nan_witness :
  is_nan (0 / 0)%float = true
  /\ result_of (calculate "divide" 1 (0 / 0)) Calculator_init = Return nan.
Proof.
  split; [reflexivity | exact (calculate_divide_by_nan 1 (0 / 0) eq_refl)].
Defined.

(** ** Further properties of the routes *)


Lemma OperationType_of_value_Some (s : string) (op : OperationType) :
  OperationType_of_value s = Some op <-> value op = s.
Proof.
  split.
  - unfold OperationType_of_value.
    destruct (String.eqb_spec s "add") as [-> | _];
      [intros H; injection H as <-; reflexivity |].
    destruct (String.eqb_spec s "subtract") as [-> | _];
      [intros H; injection H as <-; reflexivity |].
    destruct (String.eqb_spec s "multiply") as [-> | _];
      [intros H; injection H as <-; reflexivity |].
    destruct (String.eqb_spec s "divide") as [-> | _];
      [intros H; injection H as <-; reflexivity | discriminate].
  - intros <-. destruct op; reflexivity.
Qed.

Lemma OperationType_of_value_None (s : string) :
  OperationType_of_value s = None <-> ~ In s canonical_keys.
Proof.
  split.
  - intros Hnone Hin. simpl in Hin.
    destruct Hin as [<- | [<- | [<- | [<- | []]]]]; discriminate Hnone.
  - intros Hnot. destruct (OperationType_of_value s) as [op |] eqn:E;
      [| reflexivity].
    apply OperationType_of_value_Some in E. subst s.
    exfalso. apply Hnot. destruct op; simpl; tauto.
Qed.

Lemma value_canonical (op : OperationType) : In (value op) canonical_keys.
Proof. destruct op; simpl; tauto. Qed.

Lemma route_calculate_keeps_calculator
      (request : CalculationRequest.t) (calculator : Calculator) :
  snd (route_calculate request calculator) = calculator.
Proof.
  unfold route_calculate, calculate_endpoint.
  pose proof (calculate_keeps_self
                (value (CalculationRequest.operation request))
                (CalculationRequest.num1 request)
                (CalculationRequest.num2 request) calculator) as H.
  destruct (calculate _ _ _ calculator) as [[r | e] calculator'];
    simpl in *; exact H.
Qed.

Lemma post_calculate_keeps_calculator
      (b : RequestBody) (calculator : Calculator) :
  snd (post_calculate b calculator) = calculator.
Proof.
  unfold post_calculate. destruct (validate b) as [request |].
  - apply route_calculate_keeps_calculator.
  - reflexivity.
Qed.

Lemma serve_all_keeps_calculator
      (bs : list RequestBody) (calculator : Calculator) :
  serve_all bs calculator = calculator.
Proof.
  revert calculator; induction bs as [| b bs IH]; intros calculator; simpl.
  - reflexivity.
  - now rewrite post_calculate_keeps_calculator, IH.
Qed.

(** X6. A validated request to divide by a zero [num2] is answered with
    status 400 and the detail "Cannot divide by zero", whatever [num1]. *)
Theorem route_calculate_divide_by_zero (request : CalculationRequest.t) :
  CalculationRequest.operation request = DIVIDE ->
  (CalculationRequest.num2 request =? 0)%float = true ->
  fst (route_calculate request Calculator_init)
  = mkResponse HTTP_400_BAD_REQUEST (Detail "Cannot divide by zero").
Proof.
  destruct request as [op n1 n2]; simpl. intros -> Hzero.
  unfold route_calculate, calculate_endpoint; simpl.
  change (calculate "divide" n1 n2 Calculator_init)
    with (divide n1 n2 Calculator_init).
  unfold divide. now rewrite Hzero.
Qed.

Lemma route_calculate_divide_by_zero_witness :
  CalculationRequest.operation (CalculationRequest.make DIVIDE 10 0) = DIVIDE
  /\ (0 =? 0)%float = true
  /\ fst (post_calculate (mkRequestBody "divide" 10 0) Calculator_init)
     = mkResponse 400 (Detail "Cannot divide by zero").
Proof.
  split; [reflexivity | split; [reflexivity |]].
  exact (route_calculate_divide_by_zero
           (CalculationRequest.make DIVIDE 10 0) eq_refl eq_refl).
Defined.



(** X9. Serving a POST to [/calculate] leaves the module's calculator as it
    was, so the answer to a request does not depend on the requests served
    before it. *)
Theorem post_calculate_stateless
        (bs : list RequestBody) (b : RequestBody) (calculator : Calculator) :
  snd (post_calculate b calculator) = calculator
  /\ serve_all bs calculator = calculator
  /\ fst (post_calculate b (serve_all bs calculator))
     = fst (post_calculate b calculator).
Proof.
  rewrite serve_all_keeps_calculator, post_calculate_keeps_calculator.
  now repeat split.
Qed.

(** X10. [OperationType] and its values determine each other:
    [OperationType(op.value)] is [op], a string that [OperationType] accepts
    is the value of the member it gives, and the values of the members, in
    declaration order, are the keys of the calculator's mapping. *)
Theorem OperationType_value_roundtrip :
  (forall op, OperationType_of_value (value op) = Some op)
  /\ (forall s op, OperationType_of_value s = Some op -> value op = s)
  /\ map value [ADD; SUBTRACT; MULTIPLY; DIVIDE]
     = Dict.keys (_operations Calculator_init).
Proof.
  split; [| split].
  - intros op. now apply OperationType_of_value_Some.
  - intros s op. apply OperationType_of_value_Some.
  - reflexivity.
Qed.

(** X11. The boundary is case-sensitive although the engine is not: a body
    whose operation is not in lower case is answered with 422 and the
    calculator is not called, even when [calculate] would accept the
    operation. *)
Theorem post_calculate_case_sensitive
        (b : RequestBody) (calculator : Calculator) :
  PyStr.lower (body_operation b) <> body_operation b ->
  post_calculate b calculator
  = (mkResponse HTTP_422_UNPROCESSABLE_ENTITY ValidationErrors, calculator).
Proof.
  intros Hcase. unfold post_calculate, validate.
  assert (Hnone : OperationType_of_value (body_operation b) = None).
  { apply OperationType_of_value_None. intros Hin.
    apply Hcase. now apply lower_canonical. }
  now rewrite Hnone.
Qed.

Lemma post_calculate_case_sensitive_witness :
  PyStr.lower "ADD" <> "ADD"
  /\ post_calculate (mkRequestBody "ADD" 2 3) Calculator_init
     = (mkResponse 422 ValidationErrors, Calculator_init)
  /\ result_of (calculate "ADD" 2 3) Calculator_init = Return 5%float.
Proof.
  assert (Hcase : PyStr.lower "ADD" <> "ADD") by discriminate.
  split; [exact Hcase | split; [| reflexivity]].
  exact (post_calculate_case_sensitive
           (mkRequestBody "ADD" 2 3) Calculator_init Hcase).
Defined.

(** ** The [/operations] route *)

(** The appending loop builds the list of the entries of its keys. *)
Lemma append_loop_map {A B} (f : A -> B) (l : list A) (acc : list B) :
  fold_left (fun acc x => acc ++ [f x])%list l acc = (acc ++ map f l)%list.
Proof.
  revert acc; induction l as [| x l IH]; intros acc; simpl.
  - now rewrite app_nil_r.
  - now rewrite IH, <- app_assoc.
Qed.

Lemma operation_info_operation (op : string) :
  OperationInfo.operation (operation_info op) = op.
Proof.
  unfold operation_info.
  repeat match goal with
         | |- context [String.eqb op ?k] => destruct (String.eqb op k)
         end; reflexivity.
Qed.

Lemma operation_info_symbol (op : string) :
  OperationInfo.symbol (operation_info op) = "?"
  <-> ~ In op canonical_keys.
Proof.
  unfold operation_info. simpl.
  destruct (String.eqb_spec op "add") as [-> | H1];
    [split; [discriminate | tauto] |].
  destruct (String.eqb_spec op "subtract") as [-> | H2];
    [split; [discriminate | tauto] |].
  destruct (String.eqb_spec op "multiply") as [-> | H3];
    [split; [discriminate | tauto] |].
  destruct (String.eqb_spec op "divide") as [-> | H4];
    [split; [discriminate | tauto] |].
  split; [| reflexivity].
  intros _ [H | [H | [H | [H | []]]]]; congruence.
Qed.

Lemma get_operations_listing (self : Calculator) :
  Main.get_operations self
  = (Return (mkOperationsListing
               (map operation_info (Dict.keys (_operations self)))
               (List.length (Dict.keys (_operations self)))),
     self).
Proof.
  unfold Main.get_operations, get_supported_operations, bind,
    get_operations, ret; simpl.
  rewrite append_loop_map; simpl. now rewrite length_map.
Qed.

(** X12. On any calculator instance [/operations] answers with one entry per
    key of the mapping, in the order of the keys and with the key as its
    operation; [total_count] is the number of entries; the calculator is
    left as it was. *)
Theorem get_operations_lists_keys (self : Calculator) :
  exists listing,
    result_of Main.get_operations self = Return listing
    /\ map OperationInfo.operation (supported_operations listing)
       = Dict.keys (_operations self)
    /\ total_count listing = List.length (supported_operations listing)
    /\ total_count listing = List.length (_operations self)
    /\ self_after Main.get_operations self = self.
Proof.
  eexists. unfold result_of, self_after.
  rewrite get_operations_listing.
  cbn [fst snd supported_operations total_count].
  split; [reflexivity |].
  cbn [supported_operations total_count].
  split; [| split; [| split]].
  - rewrite map_map. rewrite <- (map_id (Dict.keys (_operations self))) at 2.
    apply map_ext. apply operation_info_operation.
  - now rewrite length_map.
  - unfold Dict.keys. now rewrite length_map.
  - reflexivity.
Qed.

(** X13. An entry of [/operations] carries the fallback symbol "?" exactly
    when its operation is none of add, subtract, multiply, divide, on any
    calculator instance. *)
Theorem get_operations_fallback
        (self : Calculator) (listing : OperationsListing)
        (entry : OperationInfo.t) :
  result_of Main.get_operations self = Return listing ->
  In entry (supported_operations listing) ->
  (OperationInfo.symbol entry = "?"
   <-> ~ In (OperationInfo.operation entry) canonical_keys).
Proof.
  unfold result_of. rewrite get_operations_listing; simpl.
  intros H. injection H as <-. simpl.
  intros Hin. apply in_map_iff in Hin. destruct Hin as [op [<- _]].
  rewrite operation_info_operation. apply operation_info_symbol.
Qed.

Lemma get_operations_fallback_witness :
  result_of Main.get_operations
            (mkCalculator [("add", self_add); ("power", self_multiply)])
  = Return (mkOperationsListing
              [ OperationInfo.make "add" "Addition (a + b)" "+";
                OperationInfo.make "power" "Operation: power" "?" ]
              2)
  /\ In (OperationInfo.make "power" "Operation: power" "?")
        [ OperationInfo.make "add" "Addition (a + b)" "+";
          OperationInfo.make "power" "Operation: power" "?" ]
  /\ ("?" = "?" <-> ~ In "power" canonical_keys).
Proof.
  assert (Hin : In (OperationInfo.make "power" "Operation: power" "?")
                   [ OperationInfo.make "add" "Addition (a + b)" "+";
                     OperationInfo.make "power" "Operation: power" "?" ])
    by (simpl; tauto).
  split; [reflexivity | split; [exact Hin |]].
  exact (get_operations_fallback
           (mkCalculator [("add", self_add); ("power", self_multiply)])
           _ _ eq_refl Hin).
Defined.

(** X14. After any POSTs to [/calculate], [/operations] lists exactly the
    four operations add, subtract, multiply, divide, in that order, with
    the symbols +, -, U+00D7 and U+00F7, and a [total_count] of 4. *)
Theorem get_operations_four (bs : list RequestBody) :
  result_of Main.get_operations (serve_all bs Calculator_init)
  = Return
      (mkOperationsListing
         [ OperationInfo.make "add" "Addition (a + b)" "+";
           OperationInfo.make "subtract" "Subtraction (a - b)" "-";
           OperationInfo.make "multiply"
             ("Multiplication (a " ++ times_sign ++ " b)") times_sign;
           OperationInfo.make "divide"
             ("Division (a " ++ division_sign ++ " b)") division_sign ]
         4).
Proof.
  now rewrite serve_all_keeps_calculator.
Qed.
